(** * Error traps of the Sawtooth REST API

    A model of [rest_api/sawtooth_rest_api/error_handlers.py].

    The module defines a base class [_ErrorTrap] with two class attributes,
    [trigger] and [error], and one class method, [check], and ten subclasses
    that only override the two attributes.  Route handlers call
    [SomeTrap.check(status)] on the status of a validator response.

    Python classes are objects: the model keeps them in a heap of class
    objects, attribute access walks the method resolution order of the class,
    and [check] is written in a state-and-exception monad over that heap, the
    way the Python code reads [cls.trigger] and [cls.error] and raises. *)

From Stdlib Require Import ZArith.
From stdpp Require Import base gmap strings list.

(** ** The names the module imports *)

(** [sawtooth_rest_api.exceptions], imported as [errors]: the error classes
    that the traps name.  Each is instantiated without arguments. *)
Module errors.
Inductive ApiError :=
  | StatusResponseMissing
  | SubmittedBatchesInvalid
  | BatchQueueFull
  | InvalidStateAddress
  | BlockNotFound
  | BatchNotFound
  | TransactionNotFound
  | ReceiptNotFound
  | StateNotFound.
End errors.

#[global] Instance ApiError_eq_dec : EqDecision errors.ApiError.
Proof. solve_decision. Defined.

(** The generated protobuf modules ([client_*_pb2]) are not part of the
    sources.  A protobuf enum constant is a plain Python [int]; the record
    holds the number of each constant that [error_handlers.py] reads, named
    [<message>_<constant>]. *)
Record pb2 := Pb2 {
  ClientBatchStatusResponse_NO_RESOURCE : Z;
  ClientBatchSubmitResponse_INVALID_BATCH : Z;
  ClientBatchSubmitResponse_QUEUE_FULL : Z;
  ClientStateGetResponse_INVALID_ADDRESS : Z;
  ClientStateGetResponse_NO_RESOURCE : Z;
  ClientStateListResponse_INVALID_ADDRESS : Z;
  ClientBlockGetResponse_NO_RESOURCE : Z;
  ClientBatchGetResponse_NO_RESOURCE : Z;
  ClientTransactionGetResponse_NO_RESOURCE : Z;
  ClientReceiptGetResponse_NO_RESOURCE : Z
}.

(** ** Python values, exceptions and class objects *)

(** The values that occur as class attributes and as statuses: [None], an
    [int] (a protobuf enum number) and an error class. *)
Inductive value :=
  | PyNone
  | PyInt (n : Z)
  | PyErrorClass (e : errors.ApiError).

#[global] Instance value_eq_dec : EqDecision value.
Proof. solve_decision. Defined.

(** [a == b] on these values. *)
Definition py_eq (a b : value) : bool :=
  match a, b with
  | PyNone, PyNone => true
  | PyInt m, PyInt n => Z.eqb m n
  | PyErrorClass x, PyErrorClass y => bool_decide (x = y)
  | _, _ => false
  end.

(** [v is not None]. *)
Definition is_not_None (v : value) : bool :=
  match v with
  | PyNone => false
  | _ => true
  end.

Inductive exn :=
  | AssertionError (msg : string)
  | AttributeError (attr : string)
  | NameError (name : string)
  | TypeError
  | ApiError (e : errors.ApiError).

Inductive result (A : Type) :=
  | Return (a : A)
  | Raise (e : exn).
Arguments Return {A} a.
Arguments Raise {A} e.

(** A class object: its method resolution order (the class itself first) and
    its own [__dict__], restricted to data attributes.  Classes are referred
    to by name; the module binds every class name once. *)
Record pyclass := PyClass {
  mro : list string;
  dict : gmap string value
}.

(** Computations over the heap of class objects that may raise. *)
Definition M (A : Type) : Type :=
  gmap string pyclass → result A * gmap string pyclass.

#[global] Instance M_ret : MRet M := λ A a h, (Return a, h).

#[global] Instance M_bind : MBind M := λ A B f m h,
  match m h with
  | (Return a, h') => f a h'
  | (Raise e, h') => (Raise e, h')
  end.

Definition raise {A : Type} (e : exn) : M A := λ h, (Raise e, h).

(** The first class of the resolution order whose [__dict__] has [attr]. *)
Fixpoint lookup_mro (h : gmap string pyclass) (attr : string)
    (order : list string) : option value :=
  match order with
  | [] => None
  | k :: order' =>
      match h !! k ≫= (λ c, dict c !! attr) with
      | Some v => Some v
      | None => lookup_mro h attr order'
      end
  end.

(** [cls.attr]. *)
Definition getattr (cls attr : string) : M value := λ h,
  match h !! cls with
  | Some c =>
      match lookup_mro h attr (mro c) with
      | Some v => (Return v, h)
      | None => (Raise (AttributeError attr), h)
      end
  | None => (Raise (NameError cls), h)
  end.

(** [assert b, msg], as the interpreter runs it by default (without [-O],
    which removes assert statements). *)
Definition assert (b : bool) (msg : string) : M unit :=
  if b then mret tt else raise (AssertionError msg).

(** [f()] for a class attribute [f]: an error class yields an instance of
    itself, anything else is not callable. *)
Definition call (f : value) : M exn :=
  match f with
  | PyErrorClass e => mret (ApiError e)
  | _ => raise TypeError
  end.

(** [class name(base): body], for a body that only assigns attributes.
    Nothing in [_ErrorTrap] (no metaclass, no [__init_subclass__]) inspects the
    body, so the statement only fails when [base] is unbound. *)
Definition class_stmt (name base : string) (body : gmap string value) : M unit :=
  λ h,
  match h !! base with
  | Some b => (Return tt, <[name := PyClass (name :: mro b) body]> h)
  | None => (Raise (NameError base), h)
  end.

(** ** The module *)

(** [_ErrorTrap.check], a class method: [cls] is the class it is called on. *)
Definition check (cls : string) (status : value) : M value :=
  trigger ← getattr cls "trigger";
  assert (is_not_None trigger) "Invalid ErrorTrap, trigger not set";;
  error ← getattr cls "error";
  assert (is_not_None error) "Invalid ErrorTrap, error not set";;
  trigger ← getattr cls "trigger";
  if py_eq status trigger then
    error ← getattr cls "error";
    e ← call error;
    raise e
  else mret PyNone.

Definition _ErrorTrap : string := "_ErrorTrap".
Definition StatusResponseMissing : string := "StatusResponseMissing".
Definition BatchInvalidTrap : string := "BatchInvalidTrap".
Definition BatchQueueFullTrap : string := "BatchQueueFullTrap".
Definition InvalidAddressTrap : string := "InvalidAddressTrap".
Definition BlockNotFoundTrap : string := "BlockNotFoundTrap".
Definition BatchNotFoundTrap : string := "BatchNotFoundTrap".
Definition TransactionNotFoundTrap : string := "TransactionNotFoundTrap".
Definition ReceiptNotFoundTrap : string := "ReceiptNotFoundTrap".
Definition StateNotFoundTrap : string := "StateNotFoundTrap".
Definition InvalidAddressListTrap : string := "InvalidAddressListTrap".

(** The body of a trap subclass: [trigger = t] and [error = errors.e]. *)
Definition trap_body (t : Z) (e : errors.ApiError) : gmap string value :=
  {[ "trigger" := PyInt t; "error" := PyErrorClass e ]}.

(** The class statements of the module, in source order. *)
Definition error_handlers (pb : pb2) : M unit :=
  class_stmt _ErrorTrap "object"
    {[ "trigger" := PyNone; "error" := PyNone ]};;
  class_stmt StatusResponseMissing _ErrorTrap
    (trap_body (ClientBatchStatusResponse_NO_RESOURCE pb)
       errors.StatusResponseMissing);;
  class_stmt BatchInvalidTrap _ErrorTrap
    (trap_body (ClientBatchSubmitResponse_INVALID_BATCH pb)
       errors.SubmittedBatchesInvalid);;
  class_stmt BatchQueueFullTrap _ErrorTrap
    (trap_body (ClientBatchSubmitResponse_QUEUE_FULL pb)
       errors.BatchQueueFull);;
  class_stmt InvalidAddressTrap _ErrorTrap
    (trap_body (ClientStateGetResponse_INVALID_ADDRESS pb)
       errors.InvalidStateAddress);;
  class_stmt BlockNotFoundTrap _ErrorTrap
    (trap_body (ClientBlockGetResponse_NO_RESOURCE pb)
       errors.BlockNotFound);;
  class_stmt BatchNotFoundTrap _ErrorTrap
    (trap_body (ClientBatchGetResponse_NO_RESOURCE pb)
       errors.BatchNotFound);;
  class_stmt TransactionNotFoundTrap _ErrorTrap
    (trap_body (ClientTransactionGetResponse_NO_RESOURCE pb)
       errors.TransactionNotFound);;
  class_stmt ReceiptNotFoundTrap _ErrorTrap
    (trap_body (ClientReceiptGetResponse_NO_RESOURCE pb)
       errors.ReceiptNotFound);;
  class_stmt StateNotFoundTrap _ErrorTrap
    (trap_body (ClientStateGetResponse_NO_RESOURCE pb)
       errors.StateNotFound);;
  class_stmt InvalidAddressListTrap _ErrorTrap
    (trap_body (ClientStateListResponse_INVALID_ADDRESS pb)
       errors.InvalidStateAddress).

(** The heap before the module runs: only [object]. *)
Definition builtins : gmap string pyclass :=
  {[ "object" := PyClass ["object"] ∅ ]}.

(** The heap once the module has been imported. *)
Definition module_heap (pb : pb2) : gmap string pyclass :=
  (error_handlers pb builtins).2.

(** The response messages whose status enumerations the triggers come from. *)
Inductive response_type :=
  | ClientBatchStatusResponse
  | ClientBatchSubmitResponse
  | ClientStateGetResponse
  | ClientStateListResponse
  | ClientBlockGetResponse
  | ClientBatchGetResponse
  | ClientTransactionGetResponse
  | ClientReceiptGetResponse.

(** The traps whose trigger belongs to the enumeration of a response message,
    in source order. *)
Definition rule_set (r : response_type) : list string :=
  match r with
  | ClientBatchStatusResponse => [StatusResponseMissing]
  | ClientBatchSubmitResponse => [BatchInvalidTrap; BatchQueueFullTrap]
  | ClientStateGetResponse => [InvalidAddressTrap; StateNotFoundTrap]
  | ClientStateListResponse => [InvalidAddressListTrap]
  | ClientBlockGetResponse => [BlockNotFoundTrap]
  | ClientBatchGetResponse => [BatchNotFoundTrap]
  | ClientTransactionGetResponse => [TransactionNotFoundTrap]
  | ClientReceiptGetResponse => [ReceiptNotFoundTrap]
  end.

(** What [cls.attr] evaluates to, when it does not raise. *)
Definition attr_of (h : gmap string pyclass) (cls attr : string) : option value :=
  match (getattr cls attr h).1 with
  | Return v => Some v
  | Raise _ => None
  end.

(** The triggers of the traps of a response type, as the heap has them. *)
Definition rule_triggers (h : gmap string pyclass) (r : response_type) : list value :=
  omap (λ cls, attr_of h cls "trigger") (rule_set r).

(** Whether a class body assigns [attr] a value other than [None]. *)
Definition attr_set (body : gmap string value) (attr : string) : bool :=
  match body !! attr with
  | Some v => is_not_None v
  | None => false
  end.

(** Modelled from the spec: the status enumerations are declared in the
    generated protobuf modules, which are not part of the sources.  The spec
    describes a status code as an integer-backed enumerated value whose
    enumeration defines its own distinct member set: two constants of one
    enumeration have different numbers.  Only two enumerations have two
    constants that [error_handlers.py] reads. *)
Definition enum_members_distinct (pb : pb2) : Prop :=
  ClientBatchSubmitResponse_INVALID_BATCH pb
    ≠ ClientBatchSubmitResponse_QUEUE_FULL pb
  ∧ ClientStateGetResponse_INVALID_ADDRESS pb
    ≠ ClientStateGetResponse_NO_RESOURCE pb.

(** A numbering of the enum constants, to run the module on. *)
Definition sample_pb2 : pb2 :=
  {| ClientBatchStatusResponse_NO_RESOURCE := 5;
     ClientBatchSubmitResponse_INVALID_BATCH := 3;
     ClientBatchSubmitResponse_QUEUE_FULL := 4;
     ClientStateGetResponse_INVALID_ADDRESS := 6;
     ClientStateGetResponse_NO_RESOURCE := 5;
     ClientStateListResponse_INVALID_ADDRESS := 8;
     ClientBlockGetResponse_NO_RESOURCE := 5;
     ClientBatchGetResponse_NO_RESOURCE := 5;
     ClientTransactionGetResponse_NO_RESOURCE := 5;
     ClientReceiptGetResponse_NO_RESOURCE := 5 |}.

(** ** Running the model *)

Example import_succeeds :
  (error_handlers sample_pb2 builtins).1 = Return tt.
Proof. reflexivity. Qed.

Example queue_full_raises :
  (check BatchQueueFullTrap (PyInt 4) (module_heap sample_pb2)).1
  = Raise (ApiError errors.BatchQueueFull).
Proof. reflexivity. Qed.

Example queue_full_ok_passes :
  (check BatchQueueFullTrap (PyInt 1) (module_heap sample_pb2)).1
  = Return PyNone.
Proof. reflexivity. Qed.

Example base_class_asserts :
  (check _ErrorTrap (PyInt 1) (module_heap sample_pb2)).1
  = Raise (AssertionError "Invalid ErrorTrap, trigger not set").
Proof. reflexivity. Qed.

(** ** Attribute access and [check], step by step *)

Lemma getattr_heap (cls attr : string) (h : gmap string pyclass) :
  (getattr cls attr h).2 = h.
Proof.
  unfold getattr.
  destruct (h !! cls) as [c|]; [|reflexivity].
  destruct (lookup_mro h attr (mro c)); reflexivity.
Qed.

Lemma attr_of_Some (h : gmap string pyclass) (cls attr : string) (v : value) :
  attr_of h cls attr = Some v → getattr cls attr h = (Return v, h).
Proof.
  unfold attr_of, getattr.
  destruct (h !! cls) as [c|]; simpl; [|discriminate].
  destruct (lookup_mro h attr (mro c)); simpl; [|discriminate].
  intros [= ->]. reflexivity.
Qed.

(** Unfolds the monadic steps of [check] once the attribute reads are known. *)
Ltac run_check Ht He :=
  unfold check, mbind, M_bind;
  repeat first [ rewrite Ht | rewrite He ]; simpl.

Lemma check_trigger_unset (h : gmap string pyclass) (cls : string) (status : value) :
  attr_of h cls "trigger" = Some PyNone →
  check cls status h
  = (Raise (AssertionError "Invalid ErrorTrap, trigger not set"), h).
Proof.
  intros Ht%attr_of_Some.
  run_check Ht Ht. reflexivity.
Qed.

Lemma check_error_unset (h : gmap string pyclass) (cls : string)
    (t status : value) :
  attr_of h cls "trigger" = Some t →
  is_not_None t = true →
  attr_of h cls "error" = Some PyNone →
  check cls status h
  = (Raise (AssertionError "Invalid ErrorTrap, error not set"), h).
Proof.
  intros Ht%attr_of_Some Hset He%attr_of_Some.
  run_check Ht He. rewrite Hset. simpl.
  rewrite He. reflexivity.
Qed.

Lemma check_match (h : gmap string pyclass) (cls : string)
    (t status : value) (e : errors.ApiError) :
  attr_of h cls "trigger" = Some t →
  is_not_None t = true →
  attr_of h cls "error" = Some (PyErrorClass e) →
  py_eq status t = true →
  check cls status h = (Raise (ApiError e), h).
Proof.
  intros Ht%attr_of_Some Hset He%attr_of_Some Heq.
  run_check Ht He. rewrite Hset. simpl.
  rewrite He. simpl. rewrite Ht, Heq, He. reflexivity.
Qed.

Lemma check_no_match (h : gmap string pyclass) (cls : string)
    (t e status : value) :
  attr_of h cls "trigger" = Some t →
  is_not_None t = true →
  attr_of h cls "error" = Some e →
  is_not_None e = true →
  py_eq status t = false →
  check cls status h = (Return PyNone, h).
Proof.
  intros Ht%attr_of_Some Hset He%attr_of_Some Hset' Hne.
  run_check Ht He. rewrite Hset. simpl.
  rewrite He. simpl. rewrite Hset'. simpl.
  rewrite Ht, Hne. reflexivity.
Qed.

(** [check] only reads the heap. *)
Lemma check_heap (cls : string) (status : value) (h : gmap string pyclass) :
  (check cls status h).2 = h.
Proof.
  unfold check, mbind, M_bind.
  pose proof (getattr_heap cls "trigger" h) as Ht.
  pose proof (getattr_heap cls "error" h) as He.
  destruct (getattr cls "trigger" h) as [[t|x] h1] eqn:Et; simpl in Ht;
    subst h1; [|reflexivity].
  destruct (is_not_None t); simpl; [|reflexivity].
  destruct (getattr cls "error" h) as [[e|x] h1] eqn:Ee; simpl in He;
    subst h1; [|reflexivity].
  destruct (is_not_None e); simpl; [|reflexivity].
  rewrite Et.
  destruct (py_eq status t); [|reflexivity].
  rewrite Ee.
  destruct e; reflexivity.
Qed.

Lemma py_eq_int (m n : Z) : py_eq (PyInt m) (PyInt n) = true ↔ m = n.
Proof. simpl. apply Z.eqb_eq. Qed.

Lemma py_eq_int_ne (m n : Z) : py_eq (PyInt m) (PyInt n) = false ↔ m ≠ n.
Proof. simpl. apply Z.eqb_neq. Qed.

(** ** The attributes of the module's classes *)

Lemma import_ok (pb : pb2) : (error_handlers pb builtins).1 = Return tt.
Proof. reflexivity. Qed.

(** The triggers and errors the module's traps resolve to, by response type. *)
Lemma rule_set_attrs (pb : pb2) (r : response_type) (cls : string) :
  cls ∈ rule_set r →
  ∃ (t : Z) (e : errors.ApiError),
    attr_of (module_heap pb) cls "trigger" = Some (PyInt t)
    ∧ attr_of (module_heap pb) cls "error" = Some (PyErrorClass e).
Proof.
  intros Hin.
  destruct r; simpl in Hin;
    repeat match goal with
    | H : _ ∈ _ :: _ |- _ => apply elem_of_cons in H as [-> | H]
    | H : _ ∈ [] |- _ => apply elem_of_nil in H; destruct H
    end;
    eexists _, _; split; reflexivity.
Qed.

Lemma attr_set_default (body : gmap string value) (attr : string) :
  is_not_None (default PyNone (body !! attr)) = attr_set body attr.
Proof. unfold attr_set. destruct (body !! attr); reflexivity. Qed.

Lemma is_not_None_false (v : value) : is_not_None v = false → v = PyNone.
Proof. destruct v; [reflexivity | discriminate | discriminate]. Qed.

(** The triggers of each rule set after the import. *)
Lemma rule_triggers_module (pb : pb2) (r : response_type) :
  rule_triggers (module_heap pb) r
  = match r with
    | ClientBatchStatusResponse =>
        [PyInt (ClientBatchStatusResponse_NO_RESOURCE pb)]
    | ClientBatchSubmitResponse =>
        [PyInt (ClientBatchSubmitResponse_INVALID_BATCH pb);
         PyInt (ClientBatchSubmitResponse_QUEUE_FULL pb)]
    | ClientStateGetResponse =>
        [PyInt (ClientStateGetResponse_INVALID_ADDRESS pb);
         PyInt (ClientStateGetResponse_NO_RESOURCE pb)]
    | ClientStateListResponse =>
        [PyInt (ClientStateListResponse_INVALID_ADDRESS pb)]
    | ClientBlockGetResponse =>
        [PyInt (ClientBlockGetResponse_NO_RESOURCE pb)]
    | ClientBatchGetResponse =>
        [PyInt (ClientBatchGetResponse_NO_RESOURCE pb)]
    | ClientTransactionGetResponse =>
        [PyInt (ClientTransactionGetResponse_NO_RESOURCE pb)]
    | ClientReceiptGetResponse =>
        [PyInt (ClientReceiptGetResponse_NO_RESOURCE pb)]
    end.
Proof. destruct r; reflexivity. Qed.

Lemma base_trap_attrs (pb : pb2) :
  attr_of (module_heap pb) _ErrorTrap "trigger" = Some PyNone
  ∧ attr_of (module_heap pb) _ErrorTrap "error" = Some PyNone.
Proof. split; reflexivity. Qed.

(** A trap that raised had a trigger equal to the status. *)
Lemma check_raise_inv (h : gmap string pyclass) (cls : string)
    (t e status : value) (x : exn) :
  attr_of h cls "trigger" = Some t →
  is_not_None t = true →
  attr_of h cls "error" = Some e →
  is_not_None e = true →
  (check cls status h).1 = Raise x →
  py_eq status t = true.
Proof.
  intros Ht Hset He Hset' Hraise.
  destruct (py_eq status t) eqn:Heq; [reflexivity|].
  rewrite (check_no_match h cls t e status Ht Hset He Hset' Heq) in Hraise.
  discriminate Hraise.
Qed.

(** The attributes of a class defined under [_ErrorTrap] after the import:
    its own assignment, or else the [None] of the base class. *)
Lemma subclass_attr (pb : pb2) (name : string) (body : gmap string value)
    (attr : string) :
  name ≠ _ErrorTrap →
  attr = "trigger" ∨ attr = "error" →
  attr_of (class_stmt name _ErrorTrap body (module_heap pb)).2 name attr
  = Some (default PyNone (body !! attr)).
Proof.
  intros Hname Hattr.
  unfold class_stmt.
  change (module_heap pb !! _ErrorTrap) with
    (Some (PyClass [_ErrorTrap; "object"]
             {[ "trigger" := PyNone; "error" := PyNone ]})).
  simpl. unfold attr_of, getattr.
  rewrite lookup_insert_eq. simpl.
  rewrite lookup_insert_eq. simpl.
  destruct (body !! attr) as [v|] eqn:Hbody; simpl; [reflexivity|].
  rewrite lookup_insert_ne by done.
  change (module_heap pb !! _ErrorTrap) with
    (Some (PyClass [_ErrorTrap; "object"]
             {[ "trigger" := PyNone; "error" := PyNone ]})).
  simpl. destruct Hattr as [-> | ->]; reflexivity.
Qed.

(** ** The rule catalogue *)

(** C1: for each of the ten (response type, status) pairs of the catalogue,
    calling the trap's [check] with that status raises the listed error:
    [StatusResponseMissing] on the batch-status [NO_RESOURCE];
    [SubmittedBatchesInvalid] and [BatchQueueFull] on the batch-submit
    [INVALID_BATCH] and [QUEUE_FULL]; [InvalidStateAddress] and
    [StateNotFound] on the state-get [INVALID_ADDRESS] and [NO_RESOURCE];
    [InvalidStateAddress] on the state-list [INVALID_ADDRESS]; and
    [BlockNotFound], [BatchNotFound], [TransactionNotFound] and
    [ReceiptNotFound] on the [NO_RESOURCE] of block-get, batch-get,
    transaction-get and receipt-get. *)
Theorem catalogue_raises (pb : pb2) :
  let h := module_heap pb in
  check StatusResponseMissing
    (PyInt (ClientBatchStatusResponse_NO_RESOURCE pb)) h
  = (Raise (ApiError errors.StatusResponseMissing), h)
  ∧ check BatchInvalidTrap
      (PyInt (ClientBatchSubmitResponse_INVALID_BATCH pb)) h
    = (Raise (ApiError errors.SubmittedBatchesInvalid), h)
  ∧ check BatchQueueFullTrap
      (PyInt (ClientBatchSubmitResponse_QUEUE_FULL pb)) h
    = (Raise (ApiError errors.BatchQueueFull), h)
  ∧ check InvalidAddressTrap
      (PyInt (ClientStateGetResponse_INVALID_ADDRESS pb)) h
    = (Raise (ApiError errors.InvalidStateAddress), h)
  ∧ check StateNotFoundTrap
      (PyInt (ClientStateGetResponse_NO_RESOURCE pb)) h
    = (Raise (ApiError errors.StateNotFound), h)
  ∧ check InvalidAddressListTrap
      (PyInt (ClientStateListResponse_INVALID_ADDRESS pb)) h
    = (Raise (ApiError errors.InvalidStateAddress), h)
  ∧ check BlockNotFoundTrap
      (PyInt (ClientBlockGetResponse_NO_RESOURCE pb)) h
    = (Raise (ApiError errors.BlockNotFound), h)
  ∧ check BatchNotFoundTrap
      (PyInt (ClientBatchGetResponse_NO_RESOURCE pb)) h
    = (Raise (ApiError errors.BatchNotFound), h)
  ∧ check TransactionNotFoundTrap
      (PyInt (ClientTransactionGetResponse_NO_RESOURCE pb)) h
    = (Raise (ApiError errors.TransactionNotFound), h)
  ∧ check ReceiptNotFoundTrap
      (PyInt (ClientReceiptGetResponse_NO_RESOURCE pb)) h
    = (Raise (ApiError errors.ReceiptNotFound), h).
Proof.
  intros h.
  repeat split;
    (eapply check_match;
     [ reflexivity | reflexivity | reflexivity | apply py_eq_int; reflexivity ]).
Qed.

(** ** One rule *)

(** C2: for a rule whose trigger and error are both set and any status
    number, [check] raises the rule's error when the status equals the
    trigger, and returns normally ([None], no error) when it does not; so it
    raises that error if and only if the status equals the trigger, and
    whatever it raises is that error, never another failure. *)
Theorem check_signals_condition (h : gmap string pyclass) (cls : string)
    (t : Z) (e : errors.ApiError) (status : Z) :
  attr_of h cls "trigger" = Some (PyInt t) →
  attr_of h cls "error" = Some (PyErrorClass e) →
  (status = t → check cls (PyInt status) h = (Raise (ApiError e), h))
  ∧ (status ≠ t → check cls (PyInt status) h = (Return PyNone, h))
  ∧ ((check cls (PyInt status) h).1 = Raise (ApiError e) ↔ status = t)
  ∧ (∀ x, (check cls (PyInt status) h).1 = Raise x → x = ApiError e).
Proof.
  intros Ht He.
  assert (Hyes : status = t →
    check cls (PyInt status) h = (Raise (ApiError e), h)).
  { intros Heq. eapply check_match; eauto. by apply py_eq_int. }
  assert (Hno : status ≠ t →
    check cls (PyInt status) h = (Return PyNone, h)).
  { intros Hne. eapply check_no_match; eauto. by apply py_eq_int_ne. }
  split; [exact Hyes|]. split; [exact Hno|]. split.
  - split.
    + intros Hraise. destruct (decide (status = t)) as [Heq|Hne]; [exact Heq|].
      rewrite (Hno Hne) in Hraise. discriminate Hraise.
    + intros Heq. rewrite (Hyes Heq). reflexivity.
  - intros x Hraise. destruct (decide (status = t)) as [Heq|Hne].
    + rewrite (Hyes Heq) in Hraise. simpl in Hraise. congruence.
    + rewrite (Hno Hne) in Hraise. discriminate Hraise.
Qed.

Lemma check_signals_condition_witness :
  attr_of (module_heap sample_pb2) StateNotFoundTrap "trigger" = Some (PyInt 5)
  ∧ attr_of (module_heap sample_pb2) StateNotFoundTrap "error"
    = Some (PyErrorClass errors.StateNotFound)
  ∧ check StateNotFoundTrap (PyInt 5) (module_heap sample_pb2)
    = (Raise (ApiError errors.StateNotFound), module_heap sample_pb2).
Proof.
  split; [reflexivity|]. split; [reflexivity|].
  apply (check_signals_condition (module_heap sample_pb2) StateNotFoundTrap
           5 errors.StateNotFound 5); reflexivity.
Defined.

(** C9: [check] compares the status with the trigger as plain integers and
    never asks which enumeration the status comes from: for a trap whose
    trigger and error are set, the outcome on a status number is decided by
    integer equality with the trigger number alone, and the trap's error is
    raised exactly when the two numbers are equal. *)
Theorem check_compares_numbers (h : gmap string pyclass) (cls : string)
    (t : Z) (e : errors.ApiError) :
  attr_of h cls "trigger" = Some (PyInt t) →
  attr_of h cls "error" = Some (PyErrorClass e) →
  ∀ status : Z,
    check cls (PyInt status) h
    = (if Z.eqb status t then Raise (ApiError e) else Return PyNone, h)
    ∧ ((check cls (PyInt status) h).1 = Raise (ApiError e) ↔ status = t).
Proof.
  intros Ht He status.
  assert (Hrun : check cls (PyInt status) h
    = (if Z.eqb status t then Raise (ApiError e) else Return PyNone, h)).
  { destruct (Z.eqb status t) eqn:Heq.
    - eapply check_match; eauto.
    - eapply check_no_match; eauto. }
  split; [exact Hrun|].
  rewrite Hrun. simpl.
  destruct (Z.eqb_spec status t) as [Heq|Hne]; split; try done.
Qed.

(** The block-get trap called with the [NO_RESOURCE] of the batch-get
    enumeration, which has the same number in [sample_pb2]. *)
Lemma check_compares_numbers_witness :
  attr_of (module_heap sample_pb2) BlockNotFoundTrap "trigger" = Some (PyInt 5)
  ∧ attr_of (module_heap sample_pb2) BlockNotFoundTrap "error"
    = Some (PyErrorClass errors.BlockNotFound)
  ∧ check BlockNotFoundTrap
      (PyInt (ClientBatchGetResponse_NO_RESOURCE sample_pb2))
      (module_heap sample_pb2)
    = (Raise (ApiError errors.BlockNotFound), module_heap sample_pb2).
Proof.
  split; [reflexivity|]. split; [reflexivity|].
  apply (check_compares_numbers (module_heap sample_pb2) BlockNotFoundTrap
           5 errors.BlockNotFound); reflexivity.
Defined.

(** ** Traps that are not set up *)

(** C5: when the trigger or the error of a trap is unset ([None]), [check]
    fails with an [AssertionError] on every status value whatsoever.  The
    message only depends on which attribute is unset, not on the status: the
    two assertions come before the comparison with the status. *)
Theorem unset_trap_asserts (h : gmap string pyclass) (cls : string)
    (t e : value) :
  attr_of h cls "trigger" = Some t →
  attr_of h cls "error" = Some e →
  is_not_None t && is_not_None e = false →
  ∀ status : value,
    check cls status h
    = (Raise (AssertionError
         (if is_not_None t then "Invalid ErrorTrap, error not set"
          else "Invalid ErrorTrap, trigger not set")), h).
Proof.
  intros Ht He Hunset status.
  destruct t as [|n|c]; simpl in *.
  - by apply check_trigger_unset.
  - destruct e; try discriminate Hunset.
    by eapply check_error_unset.
  - destruct e; try discriminate Hunset.
    by eapply check_error_unset.
Qed.

(** A subclass that sets only its trigger, called with that very trigger. *)
Lemma unset_trap_asserts_witness :
  let h := (class_stmt "OnlyTrigger" _ErrorTrap {[ "trigger" := PyInt 5 ]}
              (module_heap sample_pb2)).2 in
  attr_of h "OnlyTrigger" "trigger" = Some (PyInt 5)
  ∧ attr_of h "OnlyTrigger" "error" = Some PyNone
  ∧ check "OnlyTrigger" (PyInt 5) h
    = (Raise (AssertionError "Invalid ErrorTrap, error not set"), h).
Proof.
  intros h.
  split; [reflexivity|]. split; [reflexivity|].
  apply (unset_trap_asserts h "OnlyTrigger" (PyInt 5) PyNone); reflexivity.
Defined.

(** C10: the base class [_ErrorTrap], whose trigger and error are both
    [None], cannot be used directly: on every status, [_ErrorTrap.check]
    raises the [AssertionError] of the first assertion; it never raises an
    API error and never returns normally. *)
Theorem base_trap_unusable (pb : pb2) (status : value) :
  check _ErrorTrap status (module_heap pb)
  = (Raise (AssertionError "Invalid ErrorTrap, trigger not set"),
     module_heap pb)
  ∧ (∀ e, (check _ErrorTrap status (module_heap pb)).1 ≠ Raise (ApiError e))
  ∧ (∀ v, (check _ErrorTrap status (module_heap pb)).1 ≠ Return v).
Proof.
  assert (Hrun : check _ErrorTrap status (module_heap pb)
    = (Raise (AssertionError "Invalid ErrorTrap, trigger not set"),
       module_heap pb)).
  { apply check_trigger_unset. apply base_trap_attrs. }
  split; [exact Hrun|].
  rewrite Hrun. split; intros ?; discriminate.
Qed.

(** ** Purity *)

(** C7: [check] is a deterministic function of the trap and the status, with
    no hidden state: a second call with the same status on the same trap,
    made after the first, has the same outcome (the same raised error, the
    same assertion failure or the same normal return), and neither call
    changes the heap. *)
Theorem check_twice_same_outcome (h : gmap string pyclass) (cls : string)
    (status : value) :
  let once := check cls status h in
  let twice := check cls status once.2 in
  twice.1 = once.1 ∧ once.2 = h ∧ twice.2 = h.
Proof.
  intros once twice. subst once twice.
  rewrite !check_heap. auto.
Qed.

(** C8: [check] has no effect besides its outcome: on the match path, the
    no-match path and the assertion paths alike, the heap of classes after
    the call is the heap before it, so the trigger and error of the trap
    called and every attribute of every other class read as before. *)
Theorem check_no_side_effect (h : gmap string pyclass) (cls : string)
    (status : value) :
  let h' := (check cls status h).2 in
  h' = h
  ∧ attr_of h' cls "trigger" = attr_of h cls "trigger"
  ∧ attr_of h' cls "error" = attr_of h cls "error"
  ∧ (∀ other attr, attr_of h' other attr = attr_of h other attr).
Proof.
  intros h'. subst h'.
  pose proof (check_heap cls status h) as Hsame.
  rewrite Hsame. auto.
Qed.

(** ** Rule sets *)

(** C4: a status number of a response type that is not the trigger of any
    trap of that response type (the [OK] status, for one) passes every trap of
    the rule set: each [check] returns normally, raising nothing, and the
    caller goes on. *)
Theorem unlisted_status_passes (pb : pb2) (r : response_type) (status : Z) :
  PyInt status ∉ rule_triggers (module_heap pb) r →
  ∀ cls, cls ∈ rule_set r →
    check cls (PyInt status) (module_heap pb) = (Return PyNone, module_heap pb).
Proof.
  intros Hnot cls Hin.
  destruct (rule_set_attrs pb r cls Hin) as (t & e & Ht & He).
  eapply check_no_match; eauto.
  apply py_eq_int_ne. intros ->.
  apply Hnot. unfold rule_triggers.
  apply list_elem_of_omap. exists cls. split; assumption.
Qed.

(** The batch-submit traps on status 1, which is neither of their triggers
    (3 and 4) in [sample_pb2]. *)
Lemma unlisted_status_passes_witness :
  let h := module_heap sample_pb2 in
  (PyInt 1 ∉ rule_triggers h ClientBatchSubmitResponse)
  ∧ check BatchInvalidTrap (PyInt 1) h = (Return PyNone, h)
  ∧ check BatchQueueFullTrap (PyInt 1) h = (Return PyNone, h).
Proof.
  intros h.
  assert (Hnot : PyInt 1 ∉ rule_triggers h ClientBatchSubmitResponse).
  { change (PyInt 1 ∉ [PyInt 3; PyInt 4]).
    intros Hin.
    apply elem_of_cons in Hin as [Hin|Hin]; [discriminate Hin|].
    apply elem_of_cons in Hin as [Hin|Hin]; [discriminate Hin|].
    by apply elem_of_nil in Hin. }
  split; [exact Hnot|]. split.
  - apply (unlisted_status_passes sample_pb2 ClientBatchSubmitResponse 1 Hnot).
    apply list_elem_of_here.
  - apply (unlisted_status_passes sample_pb2 ClientBatchSubmitResponse 1 Hnot).
    apply list_elem_of_further, list_elem_of_here.
Defined.

(** C6: when the constants of one enumeration have distinct numbers, no two
    traps of a rule set share a trigger: the triggers of [InvalidAddressTrap]
    and [StateNotFoundTrap] differ, those of [BatchInvalidTrap] and
    [BatchQueueFullTrap] differ, every rule set has as many distinct triggers
    as traps, and on any status at most one trap of a rule set raises. *)
Theorem rule_set_triggers_distinct (pb : pb2) :
  enum_members_distinct pb →
  let h := module_heap pb in
  attr_of h InvalidAddressTrap "trigger" ≠ attr_of h StateNotFoundTrap "trigger"
  ∧ attr_of h BatchInvalidTrap "trigger" ≠ attr_of h BatchQueueFullTrap "trigger"
  ∧ ∀ r : response_type,
      NoDup (rule_triggers h r)
      ∧ length (rule_triggers h r) = length (rule_set r)
      ∧ ∀ (status : value) (c1 c2 : string) (x1 x2 : exn),
          c1 ∈ rule_set r → c2 ∈ rule_set r →
          (check c1 status h).1 = Raise x1 →
          (check c2 status h).1 = Raise x2 →
          c1 = c2.
Proof.
  intros [Hsubmit Hget] h.
  split.
  { change (Some (PyInt (ClientStateGetResponse_INVALID_ADDRESS pb))
            ≠ Some (PyInt (ClientStateGetResponse_NO_RESOURCE pb))).
    congruence. }
  split.
  { change (Some (PyInt (ClientBatchSubmitResponse_INVALID_BATCH pb))
            ≠ Some (PyInt (ClientBatchSubmitResponse_QUEUE_FULL pb))).
    congruence. }
  assert (Hone : ∀ (status : value) (c1 c2 : string) (t1 t2 : Z)
      (e1 e2 : errors.ApiError) (x1 x2 : exn),
    attr_of h c1 "trigger" = Some (PyInt t1) →
    attr_of h c1 "error" = Some (PyErrorClass e1) →
    attr_of h c2 "trigger" = Some (PyInt t2) →
    attr_of h c2 "error" = Some (PyErrorClass e2) →
    (check c1 status h).1 = Raise x1 →
    (check c2 status h).1 = Raise x2 →
    t1 = t2).
  { intros status c1 c2 t1 t2 e1 e2 x1 x2 Ht1 He1 Ht2 He2 H1 H2.
    pose proof (check_raise_inv h c1 _ _ status x1 Ht1 eq_refl He1 eq_refl H1)
      as Heq1.
    pose proof (check_raise_inv h c2 _ _ status x2 Ht2 eq_refl He2 eq_refl H2)
      as Heq2.
    destruct status as [|s|c]; try discriminate Heq1.
    apply py_eq_int in Heq1, Heq2. congruence. }
  intros r. split; [|split].
  - subst h. rewrite rule_triggers_module.
    destruct r;
      repeat first
        [ apply NoDup_nil_2
        | apply NoDup_cons_2;
          [ rewrite ?elem_of_cons, ?elem_of_nil; intros Hin;
            intuition congruence | ] ].
  - destruct r; reflexivity.
  - intros status c1 c2 x1 x2 Hin1 Hin2 H1 H2.
    destruct r; simpl in Hin1, Hin2;
      repeat match goal with
      | H : _ ∈ _ :: _ |- _ => apply elem_of_cons in H as [-> | H]
      | H : _ ∈ [] |- _ => apply elem_of_nil in H; destruct H
      end;
      try reflexivity; exfalso.
    + apply Hsubmit.
      by eapply (Hone status BatchInvalidTrap BatchQueueFullTrap).
    + apply Hsubmit. symmetry.
      by eapply (Hone status BatchQueueFullTrap BatchInvalidTrap).
    + apply Hget.
      by eapply (Hone status InvalidAddressTrap StateNotFoundTrap).
    + apply Hget. symmetry.
      by eapply (Hone status StateNotFoundTrap InvalidAddressTrap).
Qed.

Lemma rule_set_triggers_distinct_witness :
  enum_members_distinct sample_pb2
  ∧ NoDup (rule_triggers (module_heap sample_pb2) ClientStateGetResponse)
  ∧ rule_triggers (module_heap sample_pb2) ClientStateGetResponse
    = [PyInt 6; PyInt 5].
Proof.
  assert (Hdistinct : enum_members_distinct sample_pb2).
  { split; discriminate. }
  split; [exact Hdistinct|]. split; [|reflexivity].
  apply (rule_set_triggers_distinct sample_pb2 Hdistinct).
Defined.

(** ** When a missing attribute is found *)

(** C3, as the code has it: a class statement under [_ErrorTrap] is accepted
    whatever its body assigns, and so is the import of the module, whose base
    class has both attributes unset; nothing is checked when a trap is
    defined.  A trap whose body leaves the trigger or the error unset is
    found out by [check], which raises the [AssertionError] on every call,
    for every status. *)
Theorem unset_trap_found_by_check (pb : pb2) (name : string)
    (body : gmap string value) :
  name ≠ _ErrorTrap →
  let defined := class_stmt name _ErrorTrap body (module_heap pb) in
  (error_handlers pb builtins).1 = Return tt
  ∧ defined.1 = Return tt
  ∧ (attr_set body "trigger" && attr_set body "error" = false →
     ∀ status : value,
       check name status defined.2
       = (Raise (AssertionError
            (if attr_set body "trigger" then "Invalid ErrorTrap, error not set"
             else "Invalid ErrorTrap, trigger not set")), defined.2)).
Proof.
  intros Hname defined.
  split; [apply import_ok|]. split; [reflexivity|].
  intros Hunset status.
  pose proof (subclass_attr pb name body "trigger" Hname (or_introl eq_refl))
    as Ht.
  pose proof (subclass_attr pb name body "error" Hname (or_intror eq_refl))
    as He.
  pose proof (attr_set_default body "trigger") as Hdt.
  pose proof (attr_set_default body "error") as Hde.
  fold defined in Ht, He.
  destruct (attr_set body "trigger"); simpl in Hunset.
  - rewrite Hunset in Hde. apply is_not_None_false in Hde.
    rewrite Hde in He.
    by eapply check_error_unset.
  - apply is_not_None_false in Hdt. rewrite Hdt in Ht.
    by apply check_trigger_unset.
Qed.

Lemma unset_trap_found_by_check_witness :
  let defined :=
    class_stmt "NoError" _ErrorTrap {[ "trigger" := PyInt 5 ]}
      (module_heap sample_pb2) in
  "NoError" ≠ _ErrorTrap
  ∧ attr_set {[ "trigger" := PyInt 5 ]} "error" = false
  ∧ defined.1 = Return tt
  ∧ check "NoError" (PyInt 1) defined.2
    = (Raise (AssertionError "Invalid ErrorTrap, error not set"), defined.2).
Proof.
  intros defined.
  assert (Hname : "NoError" ≠ _ErrorTrap) by discriminate.
  split; [exact Hname|]. split; [reflexivity|].
  pose proof (unset_trap_found_by_check sample_pb2 "NoError"
                {[ "trigger" := PyInt 5 ]} Hname) as (_ & Hdef & Hcheck).
  split; [exact Hdef|].
  apply (Hcheck eq_refl (PyInt 1)).
Defined.

(** The class statement of a trap without an error returns normally, and the
    import before it did: the missing attribute is first met by the call of
    [check], here with the trap's own trigger. *)
Lemma unset_trap_accepted_at_definition :
  let defined :=
    class_stmt "BrokenTrap" _ErrorTrap {[ "trigger" := PyInt 5 ]}
      (module_heap sample_pb2) in
  (error_handlers sample_pb2 builtins).1 = Return tt
  ∧ defined.1 = Return tt
  ∧ (check "BrokenTrap" (PyInt 5) defined.2).1
    = Raise (AssertionError "Invalid ErrorTrap, error not set").
Proof.
  intros defined.
  split; [reflexivity|]. split; reflexivity.
Qed.

(** ** More on [check]: every outcome, and what it tells the caller *)

(** The outcome of [check] in closed form, by the two attribute reads. *)
Lemma check_cases (cls : string) (status : value) (h : gmap string pyclass) :
  check cls status h
  = (match (getattr cls "trigger" h).1 with
     | Raise x => Raise x
     | Return t =>
         if is_not_None t then
           match (getattr cls "error" h).1 with
           | Raise x => Raise x
           | Return e =>
               if is_not_None e then
                 if py_eq status t then
                   match e with
                   | PyErrorClass c => Raise (ApiError c)
                   | _ => Raise TypeError
                   end
                 else Return PyNone
               else Raise (AssertionError "Invalid ErrorTrap, error not set")
           end
         else Raise (AssertionError "Invalid ErrorTrap, trigger not set")
     end, h).
Proof.
  unfold check, mbind, M_bind.
  pose proof (getattr_heap cls "trigger" h) as Ht.
  pose proof (getattr_heap cls "error" h) as He.
  destruct (getattr cls "trigger" h) as [[t|x] h1] eqn:Et; simpl in Ht;
    subst h1; simpl; [|reflexivity].
  destruct (is_not_None t); simpl; [|reflexivity].
  destruct (getattr cls "error" h) as [[e|x] h1] eqn:Ee; simpl in He;
    subst h1; simpl; [|reflexivity].
  destruct (is_not_None e) eqn:Hset; simpl; [|reflexivity].
  rewrite Et.
  destruct (py_eq status t); [|reflexivity].
  rewrite Ee.
  destruct e; [discriminate Hset | reflexivity | reflexivity].
Qed.

Lemma attr_of_Return (h : gmap string pyclass) (cls attr : string) (v : value) :
  (getattr cls attr h).1 = Return v → attr_of h cls attr = Some v.
Proof. unfold attr_of. intros ->. reflexivity. Qed.

(** A failed attribute read is an [AttributeError] or a [NameError]. *)
Lemma getattr_raises (cls attr : string) (h : gmap string pyclass) (x : exn) :
  (getattr cls attr h).1 = Raise x →
  x = AttributeError attr ∨ x = NameError cls.
Proof.
  unfold getattr.
  destruct (h !! cls) as [c|]; simpl.
  - destruct (lookup_mro h attr (mro c)); simpl; [discriminate|].
    intros [= <-]. by left.
  - intros [= <-]. by right.
Qed.

(** X1: an API error out of [check] always means a match: the trigger of
    the class is set, the status equals it, and the error raised is the one
    the class names. *)
Theorem api_error_means_match (h : gmap string pyclass) (cls : string)
    (status : value) (e : errors.ApiError) :
  (check cls status h).1 = Raise (ApiError e) →
  ∃ t : value,
    attr_of h cls "trigger" = Some t
    ∧ is_not_None t = true
    ∧ py_eq status t = true
    ∧ attr_of h cls "error" = Some (PyErrorClass e).
Proof.
  rewrite check_cases. simpl.
  destruct (getattr cls "trigger" h).1 as [t|x] eqn:Et.
  2: { intros [= ->]. by destruct (getattr_raises _ _ _ _ Et). }
  destruct (is_not_None t) eqn:Hset; [|discriminate].
  destruct (getattr cls "error" h).1 as [v|x] eqn:Ee.
  2: { intros [= ->]. by destruct (getattr_raises _ _ _ _ Ee). }
  destruct (is_not_None v); [|discriminate].
  destruct (py_eq status t) eqn:Heq; [|discriminate].
  destruct v as [|n|c]; try discriminate.
  intros [= ->].
  exists t. auto using attr_of_Return.
Qed.

Lemma api_error_means_match_witness :
  (check ReceiptNotFoundTrap (PyInt 5) (module_heap sample_pb2)).1
  = Raise (ApiError errors.ReceiptNotFound)
  ∧ ∃ t : value,
      attr_of (module_heap sample_pb2) ReceiptNotFoundTrap "trigger" = Some t
      ∧ is_not_None t = true
      ∧ py_eq (PyInt 5) t = true
      ∧ attr_of (module_heap sample_pb2) ReceiptNotFoundTrap "error"
        = Some (PyErrorClass errors.ReceiptNotFound).
Proof.
  split; [reflexivity|].
  apply (api_error_means_match (module_heap sample_pb2) ReceiptNotFoundTrap
           (PyInt 5) errors.ReceiptNotFound).
  reflexivity.
Defined.

(** X2: a normal return of [check] is always [None], and it tells the
    caller that the class has both attributes set and that the status differs
    from the trigger; a class that is not set up never returns. *)
Theorem return_means_no_match (h : gmap string pyclass) (cls : string)
    (status v : value) :
  (check cls status h).1 = Return v →
  v = PyNone
  ∧ ∃ t e : value,
      attr_of h cls "trigger" = Some t ∧ is_not_None t = true
      ∧ attr_of h cls "error" = Some e ∧ is_not_None e = true
      ∧ py_eq status t = false.
Proof.
  rewrite check_cases. simpl.
  destruct (getattr cls "trigger" h).1 as [t|x] eqn:Et; [|discriminate].
  destruct (is_not_None t) eqn:Hset; [|discriminate].
  destruct (getattr cls "error" h).1 as [e|x] eqn:Ee; [|discriminate].
  destruct (is_not_None e) eqn:Hset'; [|discriminate].
  destruct (py_eq status t) eqn:Heq.
  - destruct e; discriminate.
  - intros [= <-]. split; [reflexivity|].
    exists t, e. auto 6 using attr_of_Return.
Qed.

Lemma return_means_no_match_witness :
  (check ReceiptNotFoundTrap (PyInt 1) (module_heap sample_pb2)).1
  = Return PyNone
  ∧ PyNone = PyNone
  ∧ ∃ t e : value,
      attr_of (module_heap sample_pb2) ReceiptNotFoundTrap "trigger" = Some t
      ∧ is_not_None t = true
      ∧ attr_of (module_heap sample_pb2) ReceiptNotFoundTrap "error" = Some e
      ∧ is_not_None e = true
      ∧ py_eq (PyInt 1) t = false.
Proof.
  split; [reflexivity|].
  apply (return_means_no_match (module_heap sample_pb2) ReceiptNotFoundTrap
           (PyInt 1) PyNone).
  reflexivity.
Defined.



(** X4: the assertions only ask that [error] is not [None].  A class whose
    error is an [int], which cannot be called, passes them: [check] returns
    [None] on every status other than the trigger and fails with a
    [TypeError], not with an API error, on the trigger itself. *)
Theorem uncallable_error_fails_on_match (h : gmap string pyclass)
    (cls : string) (t n : Z) :
  attr_of h cls "trigger" = Some (PyInt t) →
  attr_of h cls "error" = Some (PyInt n) →
  ∀ status : Z,
    check cls (PyInt status) h
    = (if Z.eqb status t then Raise TypeError else Return PyNone, h).
Proof.
  intros Ht%attr_of_Some He%attr_of_Some status.
  rewrite check_cases, Ht, He. reflexivity.
Qed.

Lemma uncallable_error_fails_on_match_witness :
  let h := (class_stmt "IntError" _ErrorTrap
              {[ "trigger" := PyInt 5; "error" := PyInt 404 ]}
              (module_heap sample_pb2)).2 in
  attr_of h "IntError" "trigger" = Some (PyInt 5)
  ∧ attr_of h "IntError" "error" = Some (PyInt 404)
  ∧ check "IntError" (PyInt 5) h = (Raise TypeError, h)
  ∧ check "IntError" (PyInt 1) h = (Return PyNone, h).
Proof.
  intros h.
  split; [reflexivity|]. split; [reflexivity|]. split.
  - apply (uncallable_error_fails_on_match h "IntError" 5 404); reflexivity.
  - apply (uncallable_error_fails_on_match h "IntError" 5 404); reflexivity.
Defined.

(** X5: none of the ten traps of the module can fail an assertion or fail
    otherwise: on every status value, of any kind, [check] either returns
    [None] or raises the error class the trap names. *)
Theorem module_traps_well_formed (pb : pb2) (r : response_type)
    (cls : string) (status : value) :
  cls ∈ rule_set r →
  let h := module_heap pb in
  check cls status h = (Return PyNone, h)
  ∨ ∃ e : errors.ApiError,
      attr_of h cls "error" = Some (PyErrorClass e)
      ∧ check cls status h = (Raise (ApiError e), h).
Proof.
  intros Hin h.
  destruct (rule_set_attrs pb r cls Hin) as (t & e & Ht & He).
  destruct (py_eq status (PyInt t)) eqn:Heq.
  - right. exists e. split; [exact He|].
    by eapply check_match.
  - left. by eapply check_no_match.
Qed.

Lemma module_traps_well_formed_witness :
  let h := module_heap sample_pb2 in
  InvalidAddressListTrap ∈ rule_set ClientStateListResponse
  ∧ (check InvalidAddressListTrap (PyErrorClass errors.StateNotFound) h
     = (Return PyNone, h)
     ∨ ∃ e : errors.ApiError,
         attr_of h InvalidAddressListTrap "error" = Some (PyErrorClass e)
         ∧ check InvalidAddressListTrap (PyErrorClass errors.StateNotFound) h
           = (Raise (ApiError e), h)).
Proof.
  intros h.
  assert (Hin : InvalidAddressListTrap ∈ rule_set ClientStateListResponse)
    by apply list_elem_of_here.
  split; [exact Hin|].
  apply (module_traps_well_formed sample_pb2 ClientStateListResponse
           InvalidAddressListTrap (PyErrorClass errors.StateNotFound) Hin).
Defined.

(** X6: the error class raised tells the trap apart, with one exception:
    [InvalidAddressTrap] (state-get) and [InvalidAddressListTrap] (state-list)
    both name [InvalidStateAddress].  Any other two traps of the module that
    name the same error class are the same trap. *)
Theorem error_identifies_trap (pb : pb2) (r1 r2 : response_type)
    (c1 c2 : string) (e : value) :
  c1 ∈ rule_set r1 →
  c2 ∈ rule_set r2 →
  attr_of (module_heap pb) c1 "error" = Some e →
  attr_of (module_heap pb) c2 "error" = Some e →
  c1 = c2
  ∨ (e = PyErrorClass errors.InvalidStateAddress
     ∧ ((c1 = InvalidAddressTrap ∧ c2 = InvalidAddressListTrap)
        ∨ (c1 = InvalidAddressListTrap ∧ c2 = InvalidAddressTrap))).
Proof.
  intros Hin1 Hin2 He1 He2.
  destruct r1; simpl in Hin1;
    repeat match goal with
    | H : _ ∈ _ :: _ |- _ => apply elem_of_cons in H as [-> | H]
    | H : _ ∈ [] |- _ => apply elem_of_nil in H; destruct H
    end;
    vm_compute in He1; injection He1 as <-;
    destruct r2; simpl in Hin2;
    repeat match goal with
    | H : _ ∈ _ :: _ |- _ => apply elem_of_cons in H as [-> | H]
    | H : _ ∈ [] |- _ => apply elem_of_nil in H; destruct H
    end;
    vm_compute in He2; try discriminate He2;
    first [ left; reflexivity | right; split; [reflexivity|]; auto ].
Qed.

Lemma error_identifies_trap_witness :
  InvalidAddressTrap ∈ rule_set ClientStateGetResponse
  ∧ InvalidAddressListTrap ∈ rule_set ClientStateListResponse
  ∧ attr_of (module_heap sample_pb2) InvalidAddressTrap "error"
    = Some (PyErrorClass errors.InvalidStateAddress)
  ∧ attr_of (module_heap sample_pb2) InvalidAddressListTrap "error"
    = Some (PyErrorClass errors.InvalidStateAddress)
  ∧ (InvalidAddressTrap = InvalidAddressListTrap
     ∨ (PyErrorClass errors.InvalidStateAddress
        = PyErrorClass errors.InvalidStateAddress
        ∧ ((InvalidAddressTrap = InvalidAddressTrap
            ∧ InvalidAddressListTrap = InvalidAddressListTrap)
           ∨ (InvalidAddressTrap = InvalidAddressListTrap
              ∧ InvalidAddressListTrap = InvalidAddressTrap)))).
Proof.
  assert (Hin1 : InvalidAddressTrap ∈ rule_set ClientStateGetResponse)
    by apply list_elem_of_here.
  assert (Hin2 : InvalidAddressListTrap ∈ rule_set ClientStateListResponse)
    by apply list_elem_of_here.
  split; [exact Hin1|]. split; [exact Hin2|].
  split; [reflexivity|]. split; [reflexivity|].
  apply (error_identifies_trap sample_pb2 ClientStateGetResponse
           ClientStateListResponse InvalidAddressTrap InvalidAddressListTrap
           (PyErrorClass errors.InvalidStateAddress) Hin1 Hin2);
    reflexivity.
Defined.

(** ** Class statements and inheritance *)

(** Binding a name that is not in a resolution order does not change what
    that order resolves. *)
Lemma lookup_mro_insert_fresh (h : gmap string pyclass) (name : string)
    (c : pyclass) (attr : string) (order : list string) :
  name ∉ order →
  lookup_mro (<[name := c]> h) attr order = lookup_mro h attr order.
Proof.
  induction order as [|k order IH]; intros Hfresh; [reflexivity|].
  apply not_elem_of_cons in Hfresh as [Hne Hfresh].
  simpl. rewrite lookup_insert_ne by done.
  rewrite (IH Hfresh). reflexivity.
Qed.

Lemma attr_of_lookup_mro (h : gmap string pyclass) (cls attr : string)
    (c : pyclass) :
  h !! cls = Some c →
  attr_of h cls attr = lookup_mro h attr (mro c).
Proof.
  intros Hcls. unfold attr_of, getattr. rewrite Hcls.
  destruct (lookup_mro h attr (mro c)); reflexivity.
Qed.

(** The outcome of [check] only depends on what the two attributes read. *)
Lemma check_ext (cls1 cls2 : string) (status : value)
    (h1 h2 : gmap string pyclass) :
  (∀ attr, (getattr cls1 attr h1).1 = (getattr cls2 attr h2).1) →
  (check cls1 status h1).1 = (check cls2 status h2).1.
Proof.
  intros Hsame. rewrite !check_cases. simpl.
  rewrite !Hsame. reflexivity.
Qed.

(** What a freshly defined class resolves: its own assignment first, then
    whatever its base resolves. *)
Lemma class_stmt_attr (h : gmap string pyclass) (name base : string)
    (b : pyclass) (body : gmap string value) (attr : string) :
  h !! base = Some b →
  name ∉ mro b →
  attr_of (class_stmt name base body h).2 name attr
  = match body !! attr with
    | Some v => Some v
    | None => attr_of h base attr
    end.
Proof.
  intros Hbase Hfresh.
  unfold class_stmt. rewrite Hbase. simpl.
  rewrite (attr_of_lookup_mro _ name attr (PyClass (name :: mro b) body))
    by apply lookup_insert_eq.
  simpl. rewrite lookup_insert_eq. simpl.
  destruct (body !! attr) as [v|]; [reflexivity|].
  rewrite lookup_mro_insert_fresh by exact Hfresh.
  symmetry. by apply attr_of_lookup_mro.
Qed.

(** X7: a class defined under a base, with a name of its own, resolves each
    of [trigger] and [error] to what its body assigns and, when its body
    leaves the attribute out, to what the base resolves: a trap may override
    one attribute and inherit the other. *)
Theorem subclass_attr_resolution (h : gmap string pyclass)
    (name base : string) (b : pyclass) (body : gmap string value) :
  h !! base = Some b →
  name ∉ mro b →
  let h' := (class_stmt name base body h).2 in
  attr_of h' name "trigger"
  = default (attr_of h base "trigger") (Some <$> body !! "trigger")
  ∧ attr_of h' name "error"
    = default (attr_of h base "error") (Some <$> body !! "error").
Proof.
  intros Hbase Hfresh h'. subst h'.
  rewrite !(class_stmt_attr h name base b) by assumption.
  split.
  - destruct (body !! "trigger"); reflexivity.
  - destruct (body !! "error"); reflexivity.
Qed.

Lemma subclass_attr_resolution_witness :
  let h := module_heap sample_pb2 in
  let body : gmap string value :=
    {[ "error" := PyErrorClass errors.BatchNotFound ]} in
  let h' := (class_stmt "Sub" BlockNotFoundTrap body h).2 in
  h !! BlockNotFoundTrap
  = Some (PyClass [BlockNotFoundTrap; _ErrorTrap; "object"]
            (trap_body 5 errors.BlockNotFound))
  ∧ ("Sub" ∉ [BlockNotFoundTrap; _ErrorTrap; "object"])
  ∧ attr_of h' "Sub" "trigger" = Some (PyInt 5)
  ∧ attr_of h' "Sub" "error" = Some (PyErrorClass errors.BatchNotFound).
Proof.
  intros h body h'.
  assert (Hbase : h !! BlockNotFoundTrap
    = Some (PyClass [BlockNotFoundTrap; _ErrorTrap; "object"]
              (trap_body 5 errors.BlockNotFound))) by reflexivity.
  assert (Hfresh : "Sub" ∉ [BlockNotFoundTrap; _ErrorTrap; "object"]).
  { intros Hin.
    repeat (apply elem_of_cons in Hin as [Hin|Hin]; [discriminate Hin|]).
    by apply elem_of_nil in Hin. }
  split; [exact Hbase|]. split; [exact Hfresh|].
  apply (subclass_attr_resolution h "Sub" BlockNotFoundTrap _ body
           Hbase Hfresh).
Defined.



(** X9: defining one more class does not disturb the traps that exist: for
    a class whose resolution order does not contain the new name, [check]
    has the same outcome after the class statement as before it. *)
Theorem class_stmt_keeps_other_traps (h : gmap string pyclass)
    (name base : string) (body : gmap string value)
    (cls : string) (c : pyclass) (status : value) :
  h !! cls = Some c →
  name ≠ cls →
  name ∉ mro c →
  (check cls status (class_stmt name base body h).2).1
  = (check cls status h).1.
Proof.
  intros Hcls Hne Hfresh.
  apply check_ext. intros attr.
  unfold class_stmt.
  destruct (h !! base) as [b|]; simpl; [|reflexivity].
  unfold getattr.
  rewrite lookup_insert_ne by done. rewrite Hcls.
  rewrite lookup_mro_insert_fresh by exact Hfresh.
  destruct (lookup_mro h attr (mro c)); reflexivity.
Qed.

Lemma class_stmt_keeps_other_traps_witness :
  let h := module_heap sample_pb2 in
  let h' :=
    (class_stmt "Later" _ErrorTrap {[ "trigger" := PyInt 4 ]} h).2 in
  h !! BatchQueueFullTrap
  = Some (PyClass [BatchQueueFullTrap; _ErrorTrap; "object"]
            (trap_body 4 errors.BatchQueueFull))
  ∧ "Later" ≠ BatchQueueFullTrap
  ∧ ("Later" ∉ [BatchQueueFullTrap; _ErrorTrap; "object"])
  ∧ (check BatchQueueFullTrap (PyInt 4) h').1
    = (check BatchQueueFullTrap (PyInt 4) h).1.
Proof.
  intros h h'.
  assert (Hcls : h !! BatchQueueFullTrap
    = Some (PyClass [BatchQueueFullTrap; _ErrorTrap; "object"]
              (trap_body 4 errors.BatchQueueFull))) by reflexivity.
  assert (Hne : "Later" ≠ BatchQueueFullTrap) by discriminate.
  assert (Hfresh : "Later" ∉ [BatchQueueFullTrap; _ErrorTrap; "object"]).
  { intros Hin.
    repeat (apply elem_of_cons in Hin as [Hin|Hin]; [discriminate Hin|]).
    by apply elem_of_nil in Hin. }
  split; [exact Hcls|]. split; [exact Hne|]. split; [exact Hfresh|].
  apply (class_stmt_keeps_other_traps h "Later" _ErrorTrap
           {[ "trigger" := PyInt 4 ]} BatchQueueFullTrap _ (PyInt 4)
           Hcls Hne Hfresh).
Defined.
